(** * starlette_sqlalchemy.query: the [Query] result-shaping helpers

    A shallow embedding of [src/starlette_sqlalchemy/query.py].  The class
    [Query] wraps an SQLAlchemy [AsyncSession] and offers one method per way
    of consuming a statement's result: [one], [one_or_none], [one_or_raise],
    [one_or_default], [all], [iterator], [exists], [count] and [choices].

    Layout of the development:
    - Python values, truthiness and the builtins the methods call;
    - exceptions, with the class hierarchy that [except] clauses test;
    - statements and the session (the external collaborator);
    - two small monads: coroutines ([M]) and async generators ([G]);
    - the SQLAlchemy result objects ([ScalarResult], [AsyncResult]);
    - the methods of [Query], one definition per method;
    - a reference session over in-memory tables, used for examples;
    - the theorems. *)

From Stdlib Require Import String Ascii List ZArith Lia Bool.
From Stdlib Require Import DecimalString.
From Equations Require Import Equations.
Import ListNotations.

Set Warnings "-register-all".

Local Open Scope string_scope.
Local Open Scope Z_scope.
Local Open Scope list_scope.

(** ** Python values *)

(** The values a result column or a selector can produce.  [VObj] is an
    instance of a plain (mapped) class: what [str] prints for it and its
    attributes, in definition order. *)
Inductive pyval : Type :=
| VNone
| VBool (b : bool)
| VInt (n : Z)
| VStr (s : string)
| VObj (repr : string) (attrs : list (string * pyval)).

(** [x is None]. *)
Definition is_None (v : pyval) : bool :=
  match v with
  | VNone => true
  | _ => false
  end.

(** [x is True]: identity with the [True] singleton, so [1 is True] is
    false. *)
Definition is_True (v : pyval) : bool :=
  match v with
  | VBool true => true
  | _ => false
  end.

(** Truth value testing, as [if x] does it: [None], [False], zero and the
    empty string are false; an instance of a class that defines neither
    [__bool__] nor [__len__] is true. *)
Definition truthy (v : pyval) : bool :=
  match v with
  | VNone => false
  | VBool b => b
  | VInt n => negb (n =? 0)
  | VStr s => negb (String.eqb s "")
  | VObj _ _ => true
  end.

(** ** Exceptions *)

(** The exception classes in play.  [NoResultFound] and
    [MultipleResultsFound] are SQLAlchemy's; [QueryError], [NoResultError]
    and [MultipleResultsError] are declared by this module; [OtherError]
    stands for any class unrelated to these (session faults, the caller's own
    errors). *)
Inductive exc_class : Type :=
| NoResultFound
| MultipleResultsFound
| QueryError
| NoResultError
| MultipleResultsError
| AttributeError
| TypeError
| ValueError
| OtherError (name : string).

(** An exception instance: its class, its message and its [__cause__]. *)
Inductive exn : Type :=
| Exc (cls : exc_class) (msg : string) (cause : option exn).

Definition exc_type (e : exn) : exc_class :=
  match e with Exc c _ _ => c end.

Definition exc_cause (e : exn) : option exn :=
  match e with Exc _ _ c => c end.

Definition exc_class_eqb (c d : exc_class) : bool :=
  match c, d with
  | NoResultFound, NoResultFound => true
  | MultipleResultsFound, MultipleResultsFound => true
  | QueryError, QueryError => true
  | NoResultError, NoResultError => true
  | MultipleResultsError, MultipleResultsError => true
  | AttributeError, AttributeError => true
  | TypeError, TypeError => true
  | ValueError, ValueError => true
  | OtherError a, OtherError b => String.eqb a b
  | _, _ => false
  end.

(** The declared bases:
    [class NoResultError(QueryError, NoResultFound)] and
    [class MultipleResultsError(QueryError, MultipleResultsFound)]. *)
Definition issubclass (c d : exc_class) : bool :=
  exc_class_eqb c d ||
  match c, d with
  | NoResultError, (QueryError | NoResultFound) => true
  | MultipleResultsError, (QueryError | MultipleResultsFound) => true
  | _, _ => false
  end.

(** What an [except d as ex] clause tests. *)
Definition isinstance (e : exn) (d : exc_class) : bool :=
  issubclass (exc_type e) d.

(** A value or the exception raised instead. *)
Definition result (A : Type) : Type := (exn + A)%type.

(** ** Builtins used by the methods *)

Definition string_of_Z (n : Z) : string :=
  NilZero.string_of_int (Z.to_int n).

(** [str(x)]. *)
Definition py_str (v : pyval) : string :=
  match v with
  | VNone => "None"
  | VBool true => "True"
  | VBool false => "False"
  | VInt n => string_of_Z n
  | VStr s => s
  | VObj repr _ => repr
  end.

(** Reading a decimal literal: an optional sign and at least one digit. *)
Definition digit_of (c : ascii) : option Z :=
  let n := nat_of_ascii c in
  if (48 <=? n)%nat && (n <=? 57)%nat then Some (Z.of_nat (n - 48)) else None.

Fixpoint digits_value (acc : Z) (s : string) : option Z :=
  match s with
  | EmptyString => Some acc
  | String c rest =>
      match digit_of c with
      | Some d => digits_value (10 * acc + d) rest
      | None => None
      end
  end.

Definition unsigned_literal (s : string) : option Z :=
  match s with
  | EmptyString => None
  | _ => digits_value 0 s
  end.

Definition int_literal (s : string) : option Z :=
  match s with
  | String "-" rest => option_map Z.opp (unsigned_literal rest)
  | String "+" rest => unsigned_literal rest
  | _ => unsigned_literal s
  end.

(** [int(x)] on the values a count column can hold.  Of the literals
    Python reads from a string, the plain ones are covered (a sign and
    digits); surrounding blanks and underscores between digits are not. *)
Definition py_int (v : pyval) : result Z :=
  match v with
  | VInt n => inr n
  | VBool b => inr (if b then 1 else 0)
  | VStr s =>
      match int_literal s with
      | Some n => inr n
      | None => inl (Exc ValueError "invalid literal for int() with base 10" None)
      end
  | VNone | VObj _ _ =>
      inl (Exc TypeError "int() argument must be a string, a bytes-like object or a real number" None)
  end.

(** [getattr(obj, name)] on an instance that stores its attributes as
    plain values: the attribute, or [AttributeError] when there is none.
    Attribute lookup that runs code (a property, a descriptor, a lazy load),
    which can raise anything, is not covered, nor are the attributes of
    builtin values. *)
Fixpoint lookup_attr (name : string) (attrs : list (string * pyval)) : option pyval :=
  match attrs with
  | [] => None
  | (k, v) :: rest => if String.eqb k name then Some v else lookup_attr name rest
  end.

Definition getattr (obj : pyval) (name : string) : result pyval :=
  match obj with
  | VObj _ attrs =>
      match lookup_attr name attrs with
      | Some v => inr v
      | None => inl (Exc AttributeError name None)
      end
  | _ => inl (Exc AttributeError name None)
  end.

(** [s.split('.')]. *)
Fixpoint split_dots (s : string) : list string :=
  match s with
  | EmptyString => [""]
  | String c rest =>
      if Ascii.eqb c "."%char then "" :: split_dots rest
      else
        match split_dots rest with
        | [] => [String c ""]
        | w :: ws => String c w :: ws
        end
  end.

(** [operator.attrgetter(attr)]: the dotted name is split once and the
    returned function walks the attributes from left to right. *)
Fixpoint resolve_attrs (names : list string) (obj : pyval) : result pyval :=
  match names with
  | [] => inr obj
  | n :: rest =>
      match getattr obj n with
      | inl e => inl e
      | inr v => resolve_attrs rest v
      end
  end.

Definition attrgetter (attr : string) : pyval -> result pyval :=
  resolve_attrs (split_dots attr).

(** ** Statements and the session *)

(** A statement.  [Table] is a query descriptor the caller has built, opaque
    to this module; [Limit] is the caller's [stmt.limit(n)].  The other
    three are the statements the methods build around the caller's:
    [SelectExists inner] is [sa.select(sa.exists(inner))],
    [SelectCount inner] is
    [sa.select(sa.func.count()).select_from(inner.subquery())], and
    [ExecutionOptions n inner] is [inner.execution_options(yield_per=n)]. *)
Inductive Select : Type :=
| Table (name : string)
| Limit (n : nat) (inner : Select)
| SelectExists (inner : Select)
| SelectCount (inner : Select)
| ExecutionOptions (yield_per : Z) (inner : Select).

(** A result row: a tuple with at least one column. *)
Record Row : Type := mkRow { col0 : pyval; cols : list pyval }.

(** A row of one column. *)
Definition row1 (v : pyval) : Row := mkRow v [].

(** [row[0]]. *)
Definition row_getitem0 (r : Row) : pyval := col0 r.

(** The session: what executing a statement gives, rows or a fault, for a
    buffered execution ([execute], which [scalars] goes through) and for a
    server-side cursor ([stream]). *)
Record AsyncSession : Type := mkSession {
  execute : Select -> result (list Row);
  stream_rows : Select -> result (list Row)
}.

(** What a method asks of the session, in order. *)
Inductive call : Type :=
| CallScalars (stmt : Select)
| CallStream (stmt : Select).

(** ** Coroutines *)

(** The outcome of awaiting a coroutine: the calls it made on the session
    and the value it returned or the exception it raised. *)
Definition M (A : Type) : Type := (list call * result A)%type.

Definition ret {A} (a : A) : M A := ([], inr a).

Definition raise {A} (e : exn) : M A := ([], inl e).

Definition bind {A B} (m : M A) (k : A -> M B) : M B :=
  match m with
  | (t, inl e) => (t, inl e)
  | (t, inr a) => let (t', r) := k a in (t ++ t', r)
  end.

(** A call that cannot touch the session. *)
Definition lift {A} (r : result A) : M A := ([], r).

Definition calls {A} (m : M A) : list call := fst m.

Definition outcome {A} (m : M A) : result A := snd m.

Declare Scope coro_scope.
Delimit Scope coro_scope with coro.
Notation "x <- m ;; k" := (bind m (fun x => k))
  (at level 61, m at next level, right associativity) : coro_scope.

(** [raise cls from ex]: a fresh instance of [cls], built without arguments,
    with [ex] as its cause. *)
Definition raise_from {A} (cls : exc_class) (ex : exn) : M A :=
  raise (Exc cls "" (Some ex)).

(** [try: body except c1 as ex: h1 except c2 as ex: h2 ...]: the first
    clause whose class the exception is an instance of handles it; with no
    such clause the exception goes on to the caller. *)
Fixpoint find_handler {A} (ex : exn) (handlers : list (exc_class * (exn -> M A)))
  : option (exn -> M A) :=
  match handlers with
  | [] => None
  | (c, h) :: rest => if isinstance ex c then Some h else find_handler ex rest
  end.

Definition try_except {A} (body : M A) (handlers : list (exc_class * (exn -> M A))) : M A :=
  match body with
  | (t, inl ex) =>
      match find_handler ex handlers with
      | Some h => let (t', r) := h ex in (t ++ t', r)
      | None => (t, inl ex)
      end
  | (t, inr a) => (t, inr a)
  end.

(** ** Async generators *)

(** The outcome of driving an async generator to its end: the calls made on
    the session, the items yielded, in order, and how it stopped ([inr tt]:
    exhausted; [inl e]: [e] was raised after the items). *)
Record G (Y : Type) : Type := mkG {
  gen_calls : list call;
  yielded : list Y;
  stopped : result unit
}.
Arguments mkG {Y} _ _ _.
Arguments gen_calls {Y} _.
Arguments yielded {Y} _.
Arguments stopped {Y} _.

Definition gen_pass {Y} : G Y := mkG [] [] (inr tt).

(** [yield y]. *)
Definition gen_yield {Y} (y : Y) : G Y := mkG [] [y] (inr tt).

(** One statement after another: the second runs only if the first did not
    raise. *)
Definition gen_seq {Y} (g1 g2 : G Y) : G Y :=
  match stopped g1 with
  | inl e => g1
  | inr _ => mkG (gen_calls g1 ++ gen_calls g2) (yielded g1 ++ yielded g2) (stopped g2)
  end.

(** [x = await m] followed by the rest of the body. *)
Definition gen_await {Y A} (m : M A) (k : A -> G Y) : G Y :=
  match m with
  | (t, inl e) => mkG t [] (inl e)
  | (t, inr a) => gen_seq (mkG t [] (inr tt)) (k a)
  end.

(** [for x in xs: body]. *)
Fixpoint gen_for {Y A} (xs : list A) (body : A -> G Y) : G Y :=
  match xs with
  | [] => gen_pass
  | x :: rest => gen_seq (body x) (gen_for rest body)
  end.

(** ** SQLAlchemy's result objects *)

(** [ScalarResult]: the first column of every row, in row order. *)
Definition ScalarResult : Type := list pyval.

(** [AsyncSession.scalars(stmt)]. *)
Definition scalars (sess : AsyncSession) (stmt : Select) : M ScalarResult :=
  ([CallScalars stmt],
   match execute sess stmt with
   | inl e => inl e
   | inr rows => inr (map col0 rows)
   end).

(** [ScalarResult.one()]: exactly one row, or [NoResultFound] /
    [MultipleResultsFound]. *)
Definition ScalarResult_one (rows : ScalarResult) : result pyval :=
  match rows with
  | [] => inl (Exc NoResultFound "No row was found when one was required" None)
  | [v] => inr v
  | _ :: _ :: _ =>
      inl (Exc MultipleResultsFound "Multiple rows were found when exactly one was required" None)
  end.

(** [ScalarResult.one_or_none()]: [None] when there is no row. *)
Definition ScalarResult_one_or_none (rows : ScalarResult) : result pyval :=
  match rows with
  | [] => inr VNone
  | [v] => inr v
  | _ :: _ :: _ =>
      inl (Exc MultipleResultsFound "Multiple rows were found when one or none was required" None)
  end.

(** [ScalarResult.all()]. *)
Definition ScalarResult_all (rows : ScalarResult) : list pyval := rows.

(** [AsyncResult]: the rows a server-side cursor still has to deliver. *)
Definition AsyncResult : Type := list Row.

(** [AsyncSession.stream(stmt)]. *)
Definition stream (sess : AsyncSession) (stmt : Select) : M AsyncResult :=
  ([CallStream stmt], stream_rows sess stmt).

Definition inspect {A} (a : A) : {b : A | a = b} := exist _ a eq_refl.

(** The loop of [AsyncResult.partitions(size)]: fetch up to [size] rows,
    yield them if there are any, stop at the first empty fetch. *)
Equations? fetch_partitions (size : nat) (rows : list Row) : list (list Row)
  by wf (List.length rows) lt :=
  fetch_partitions size rows with inspect (firstn size rows) := {
    | exist _ [] _ => [];
    | exist _ (r :: p) Heq => (r :: p) :: fetch_partitions size (skipn size rows) }.
Proof.
  rewrite length_skipn.
  destruct size as [|n]; [discriminate Heq|].
  destruct rows as [|x xs]; [discriminate Heq|].
  simpl; lia.
Qed.

(** [AsyncResult.partitions(size)], for a size from 0 up.  A size of 0
    fetches nothing, so the loop stops at once.  A negative size, which
    SQLAlchemy refuses with a [ValueError], is not covered: it is read
    as 0. *)
Definition AsyncResult_partitions (size : Z) (res : AsyncResult) : list (list Row) :=
  fetch_partitions (Z.to_nat size) res.

(** [stmt.execution_options(yield_per=batch_size)]. *)
Definition execution_options (stmt : Select) (yield_per : Z) : Select :=
  ExecutionOptions yield_per stmt.

(** [sa.select(sa.exists(stmt))]. *)
Definition sa_select_exists (stmt : Select) : Select := SelectExists stmt.

(** [sa.select(sa.func.count()).select_from(stmt.subquery())]. *)
Definition sa_select_count_from_subquery (stmt : Select) : Select := SelectCount stmt.

(** Modelled from the spec: [starlette_sqlalchemy.collection.Collection],
    which [query.py] imports and whose source is not at hand.  The spec's
    RowCollection is "an ordered, finite, already-materialized sequence of T,
    insertion order = database row order", immutable once constructed;
    iterating it visits the items in that order. *)
Record Collection : Type := mkCollection { items : list pyval }.

Definition Collection_iter (c : Collection) : list pyval := items c.

(** ** The class [Query] *)

Record Query : Type := mkQuery { dbsession : AsyncSession }.

(** [Query.one]. *)
Definition one (self : Query) (stmt : Select) : M pyval :=
  try_except
    (rows <- scalars (dbsession self) stmt ;;
     lift (ScalarResult_one rows))%coro
    [ (NoResultFound, fun ex => raise_from NoResultError ex);
      (MultipleResultsFound, fun ex => raise_from MultipleResultsError ex) ].

(** [Query.one_or_none]. *)
Definition one_or_none (self : Query) (stmt : Select) : M pyval :=
  try_except
    (rows <- scalars (dbsession self) stmt ;;
     lift (ScalarResult_one_or_none rows))%coro
    [ (MultipleResultsFound, fun ex => raise_from MultipleResultsError ex) ].

(** [Query.one_or_raise]. *)
Definition one_or_raise (self : Query) (stmt : Select) (exc : exn) : M pyval :=
  (entity <- one_or_none self stmt ;;
   if is_None entity then raise exc else ret entity)%coro.

(** [Query.one_or_default]. *)
Definition one_or_default (self : Query) (stmt : Select) (default_value : pyval) : M pyval :=
  (entity <- one_or_none self stmt ;;
   ret (if truthy entity then entity else default_value))%coro.

(** [Query.all]. *)
Definition all (self : Query) (stmt : Select) : M Collection :=
  (result <- scalars (dbsession self) stmt ;;
   ret (mkCollection (ScalarResult_all result)))%coro.

(** [Query.iterator]. *)
Definition iterator (self : Query) (stmt : Select) (batch_size : Z) : G pyval :=
  let stmt := execution_options stmt batch_size in
  gen_await (stream (dbsession self) stmt) (fun result =>
    gen_for (AsyncResult_partitions batch_size result) (fun partition =>
      gen_for partition (fun row =>
        gen_yield (row_getitem0 row)))).

(** The default of [batch_size]. *)
Definition default_batch_size : Z := 1000.

(** [Query.exists]. *)
Definition exists_ (self : Query) (stmt : Select) : M bool :=
  let stmt := sa_select_exists stmt in
  (result <- scalars (dbsession self) stmt ;;
   v <- lift (ScalarResult_one result) ;;
   ret (is_True v))%coro.

(** [Query.count]. *)
Definition count (self : Query) (stmt : Select) : M Z :=
  let stmt := sa_select_count_from_subquery stmt in
  (result <- scalars (dbsession self) stmt ;;
   count <- lift (ScalarResult_one result) ;;
   if truthy count then lift (py_int count) else ret 0)%coro.

(** A [label_attr] or [value_attr] argument: a string naming an attribute,
    or anything else, which is then called with the row. *)
Inductive selector : Type :=
| AttrName (name : string)
| Callable (f : pyval -> result pyval).

(** The two [isinstance(..., str)] tests at the head of [choices]. *)
Definition getter_of (attr : selector) : pyval -> result pyval :=
  match attr with
  | AttrName name => attrgetter name
  | Callable f => f
  end.

(** A call inside a generator body: its exception ends the generator. *)
Definition gen_call {Y A} (r : result A) (k : A -> G Y) : G Y :=
  match r with
  | inl e => mkG [] [] (inl e)
  | inr a => k a
  end.

(** [Query.choices].  The tuple is built left to right: the value getter
    runs before the label getter. *)
Definition choices (self : Query) (stmt : Select) (label_attr value_attr : selector)
  : G (pyval * pyval) :=
  let label_getter := getter_of label_attr in
  let value_getter := getter_of value_attr in
  gen_await (all self stmt) (fun rows =>
    gen_for (Collection_iter rows) (fun item =>
      gen_call (value_getter item) (fun v =>
      gen_call (label_getter item) (fun l =>
        gen_yield (v, l))))).

(** The defaults [label_attr=str] and [value_attr="id"]. *)
Definition default_label_attr : selector := Callable (fun v => inr (VStr (py_str v))).

Definition default_value_attr : selector := AttrName "id".

(** ** A reference session over in-memory tables *)

(** The collaborator's contract, run on a database that maps each table
    query to its rows or to the fault executing it raises: [Limit] keeps a
    prefix, an EXISTS probe answers one boolean row, a count over a
    sub-query answers one integer row, and execution options change nothing
    of the rows. *)
Fixpoint run_select (db : string -> result (list Row)) (s : Select) : result (list Row) :=
  match s with
  | Table name => db name
  | Limit n inner =>
      match run_select db inner with
      | inl e => inl e
      | inr rows => inr (firstn n rows)
      end
  | SelectExists inner =>
      match run_select db inner with
      | inl e => inl e
      | inr rows => inr [row1 (VBool (negb (Nat.eqb (List.length rows) 0)))]
      end
  | SelectCount inner =>
      match run_select db inner with
      | inl e => inl e
      | inr rows => inr [row1 (VInt (Z.of_nat (List.length rows)))]
      end
  | ExecutionOptions _ inner => run_select db inner
  end.

Definition table_session (db : string -> result (list Row)) : AsyncSession :=
  mkSession (run_select db) (run_select db).

(** The session contract the aggregate and streaming methods rely on
    (the collaborator's side of the interface): a limit keeps a prefix of
    the rows, an EXISTS probe over a statement answers one boolean row, a
    count over a statement taken as a sub-query answers one integer row, and
    a streamed execution with a [yield_per] hint delivers the rows of the
    plain execution. *)
Record sql_session (sess : AsyncSession) : Prop := {
  limit_rows : forall n stmt rows,
    execute sess stmt = inr rows ->
    execute sess (Limit n stmt) = inr (firstn n rows);
  exists_row : forall stmt rows,
    execute sess stmt = inr rows ->
    execute sess (SelectExists stmt) = inr [row1 (VBool (negb (Nat.eqb (length rows) 0)))];
  count_row : forall stmt rows,
    execute sess stmt = inr rows ->
    execute sess (SelectCount stmt) = inr [row1 (VInt (Z.of_nat (length rows)))];
  stream_hint : forall n stmt,
    stream_rows sess (ExecutionOptions n stmt) = execute sess stmt
}.

(** ** Reading outcomes *)

(** The statement yields these rows / faults with this exception. *)
Definition yields (self : Query) (stmt : Select) (rows : list Row) : Prop :=
  execute (dbsession self) stmt = inr rows.

Definition faults (self : Query) (stmt : Select) (ex : exn) : Prop :=
  execute (dbsession self) stmt = inl ex.

Definition returns {A} (m : M A) (a : A) : Prop := outcome m = inr a.

Definition fails {A} (m : M A) (e : exn) : Prop := outcome m = inl e.

(** The two cardinality errors as [one] and [one_or_none] raise them. *)
Definition NoResult_from_one : exn :=
  Exc NoResultError ""
    (Some (Exc NoResultFound "No row was found when one was required" None)).

Definition MultipleResults_from_one : exn :=
  Exc MultipleResultsError ""
    (Some (Exc MultipleResultsFound
             "Multiple rows were found when exactly one was required" None)).

Definition MultipleResults_from_one_or_none : exn :=
  Exc MultipleResultsError ""
    (Some (Exc MultipleResultsFound
             "Multiple rows were found when one or none was required" None)).

(** ** A small database for the examples *)

Definition user (id : Z) (name : string) : pyval :=
  VObj ("User " ++ name)%string [("id", VInt id); ("name", VStr name)].

Definition demo_db (name : string) : result (list Row) :=
  if String.eqb name "users" then
    inr (map row1 [user 1 "a"; user 2 "b"; user 3 "c"; user 4 "d"; user 5 "e"])
  else if String.eqb name "two_users" then inr [row1 (user 1 "a"); row1 (user 2 "b")]
  else if String.eqb name "one_user" then inr [row1 (user 1 "a")]
  else if String.eqb name "no_user" then inr []
  else if String.eqb name "zero_balance" then inr [row1 (VInt 0)]
  else if String.eqb name "blank_nickname" then inr [row1 (VStr "")]
  else if String.eqb name "null_nickname" then inr [row1 VNone]
  else inl (Exc (OtherError "OperationalError") "no such table" None).

Definition demo : Query := mkQuery (table_session demo_db).

Definition not_found : exn := Exc (OtherError "UserNotFound") "user not found" None.

(** Whether an attribute name is dotted. *)
Fixpoint has_dot (s : string) : bool :=
  match s with
  | EmptyString => false
  | String c rest => Ascii.eqb c "."%char || has_dot rest
  end.

(** The rows of the spec's [choices] example, whatever their classes
    print as. *)
Definition example_rows (repr1 repr2 : string) : list Row :=
  [ row1 (VObj repr1 [("id", VInt 1); ("name", VStr "a")]);
    row1 (VObj repr2 [("id", VInt 2); ("name", VStr "b")]) ].

(** The body of the loop of [choices]. *)
Definition choice_of (label_getter value_getter : pyval -> result pyval) (item : pyval)
  : G (pyval * pyval) :=
  gen_call (value_getter item) (fun v =>
  gen_call (label_getter item) (fun l =>
    gen_yield (v, l))).

(** ** More sessions for the examples *)

(** A database as [demo_db], with three more tables: one whose execution
    the session aborts with SQLAlchemy's own [NoResultFound], one whose
    second row has no [id], and one whose rows hold another instance. *)
Definition blog_db (name : string) : result (list Row) :=
  if String.eqb name "expired" then
    inl (Exc NoResultFound "No row was found when one was required" None)
  else if String.eqb name "visitors" then
    inr [row1 (user 1 "a"); row1 (VObj "Guest" [("name", VStr "g")]); row1 (user 3 "c")]
  else if String.eqb name "posts" then
    inr [row1 (VObj "Post 10" [("id", VInt 10); ("author", user 1 "a")]);
         row1 (VObj "Post 11" [("id", VInt 11); ("author", user 2 "b")])]
  else demo_db name.

Definition blog : Query := mkQuery (table_session blog_db).

(** A session whose driver hands back EXISTS as the integer 1 and answers
    a count with no row at all. *)
Definition untyped_session : AsyncSession :=
  mkSession
    (fun s => match s with
              | SelectExists _ => inr [row1 (VInt 1)]
              | _ => inr []
              end)
    (fun _ => inr []).

Definition untyped : Query := mkQuery untyped_session.

(** ** Reading what [choices] yielded *)

(** The pair is what the two getters give on the item. *)
Definition projects (label_getter value_getter : pyval -> result pyval)
           (item : pyval) (pair : pyval * pyval) : Prop :=
  value_getter item = inr (fst pair) /\ label_getter item = inr (snd pair).

(** A getter raised [e] on the item: the value getter, or the label getter
    after the value getter had succeeded. *)
Definition getter_raised (label_getter value_getter : pyval -> result pyval)
           (item : pyval) (e : exn) : Prop :=
  value_getter item = inl e \/
  (exists v, value_getter item = inr v /\ label_getter item = inl e).

(** * Lemmas *)

Section Executor.

Variable self : Query.
Variable stmt : Select.

(** ** What each cardinality method computes from the session's answer *)

Lemma one_unfold :
  one self stmt =
  ([CallScalars stmt],
   match execute (dbsession self) stmt with
   | inl ex =>
       if isinstance ex NoResultFound then inl (Exc NoResultError "" (Some ex))
       else if isinstance ex MultipleResultsFound
            then inl (Exc MultipleResultsError "" (Some ex))
            else inl ex
   | inr [] => inl NoResult_from_one
   | inr [r] => inr (col0 r)
   | inr (_ :: _ :: _) => inl MultipleResults_from_one
   end).
Proof.
  unfold one, scalars, try_except, bind, lift.
  destruct (execute (dbsession self) stmt) as [ex | [|r1 [|r2 rest]]]; simpl; try reflexivity.
  destruct (isinstance ex NoResultFound); simpl; [reflexivity|].
  destruct (isinstance ex MultipleResultsFound); reflexivity.
Qed.

Lemma one_or_none_unfold :
  one_or_none self stmt =
  ([CallScalars stmt],
   match execute (dbsession self) stmt with
   | inl ex =>
       if isinstance ex MultipleResultsFound
       then inl (Exc MultipleResultsError "" (Some ex))
       else inl ex
   | inr [] => inr VNone
   | inr [r] => inr (col0 r)
   | inr (_ :: _ :: _) => inl MultipleResults_from_one_or_none
   end).
Proof.
  unfold one_or_none, scalars, try_except, bind, lift.
  destruct (execute (dbsession self) stmt) as [ex | [|r1 [|r2 rest]]]; simpl; try reflexivity.
  destruct (isinstance ex MultipleResultsFound); reflexivity.
Qed.

(** [one_or_raise] and [one_or_default] in terms of [one_or_none]. *)
Lemma one_or_raise_unfold (exc : exn) :
  one_or_raise self stmt exc =
  (calls (one_or_none self stmt),
   match outcome (one_or_none self stmt) with
   | inl e => inl e
   | inr VNone => inl exc
   | inr v => inr v
   end).
Proof.
  unfold one_or_raise, bind, calls, outcome.
  destruct (one_or_none self stmt) as [t [e | v]]; simpl; [reflexivity|].
  destruct v; simpl; rewrite app_nil_r; reflexivity.
Qed.

Lemma one_or_default_unfold (default_value : pyval) :
  one_or_default self stmt default_value =
  (calls (one_or_none self stmt),
   match outcome (one_or_none self stmt) with
   | inl e => inl e
   | inr v => inr (if truthy v then v else default_value)
   end).
Proof.
  unfold one_or_default, bind, calls, outcome.
  destruct (one_or_none self stmt) as [t [e | v]]; simpl; [reflexivity|].
  rewrite app_nil_r; reflexivity.
Qed.

Lemma all_unfold :
  all self stmt =
  ([CallScalars stmt],
   match execute (dbsession self) stmt with
   | inl ex => inl ex
   | inr rows => inr (mkCollection (map col0 rows))
   end).
Proof.
  unfold all, scalars, bind, ret, ScalarResult_all.
  destruct (execute (dbsession self) stmt); reflexivity.
Qed.

End Executor.

(** ** Generators *)

Lemma gen_for_yield {A Y} (f : A -> Y) (xs : list A) :
  gen_for xs (fun x => gen_yield (f x)) = mkG [] (map f xs) (inr tt).
Proof.
  induction xs as [|x xs IH]; simpl; [reflexivity|].
  rewrite IH; reflexivity.
Qed.

(** Flattening: a loop over batches around a loop over the rows of a batch
    yields the rows of all batches, batch after batch. *)
Lemma gen_for_batches {A Y} (f : A -> Y) (parts : list (list A)) :
  gen_for parts (fun part => gen_for part (fun x => gen_yield (f x)))
  = mkG [] (map f (concat parts)) (inr tt).
Proof.
  induction parts as [|part parts IH]; simpl; [reflexivity|].
  rewrite gen_for_yield, IH, map_app; reflexivity.
Qed.

(** A loop whose body calls two getters that succeed on every item. *)
Lemma gen_for_getters (vg lg : pyval -> result pyval) (fv fl : pyval -> pyval)
      (xs : list pyval) :
  (forall x, In x xs -> vg x = inr (fv x) /\ lg x = inr (fl x)) ->
  gen_for xs (fun x =>
    gen_call (vg x) (fun v => gen_call (lg x) (fun l => gen_yield (v, l))))
  = mkG [] (map (fun x => (fv x, fl x)) xs) (inr tt).
Proof.
  induction xs as [|x xs IH]; intros Hok; simpl; [reflexivity|].
  destruct (Hok x (or_introl eq_refl)) as [Hv Hl].
  rewrite Hv, Hl, IH; [reflexivity|].
  intros y Hy; apply Hok; right; exact Hy.
Qed.

(** ** Batches *)

(** Fetching in batches of a positive size loses no row, repeats none and
    keeps the order. *)
Lemma concat_fetch_partitions (size : nat) (rows : list Row) :
  (0 < size)%nat -> concat (fetch_partitions size rows) = rows.
Proof.
  intros Hsize.
  funelim (fetch_partitions size rows).
  - destruct size as [|n]; [lia|].
    destruct rows as [|x xs]; [reflexivity | discriminate e].
  - simpl. rewrite H by exact Hsize.
    transitivity (firstn size rows ++ skipn size rows).
    + rewrite Heq; reflexivity.
    + apply firstn_skipn.
Qed.

(** No batch is empty and none is longer than the batch size. *)
Lemma fetch_partitions_sizes (size : nat) (rows : list Row) :
  Forall (fun part => (0 < length part <= size)%nat) (fetch_partitions size rows).
Proof.
  funelim (fetch_partitions size rows).
  - constructor.
  - constructor; [|exact H].
    split; [simpl; lia|].
    rewrite <- Heq. apply firstn_le_length.
Qed.

(** ** Attribute names *)

Lemma split_dots_plain (name : string) :
  has_dot name = false -> split_dots name = [name].
Proof.
  induction name as [|c rest IH]; simpl; [reflexivity|].
  destruct (Ascii.eqb c "."); simpl; [discriminate|].
  intros Hrest; rewrite (IH Hrest); reflexivity.
Qed.

Lemma attrgetter_plain (name : string) (obj : pyval) :
  has_dot name = false -> attrgetter name obj = getattr obj name.
Proof.
  intros Hname. unfold attrgetter.
  rewrite (split_dots_plain name Hname); simpl.
  destruct (getattr obj name); reflexivity.
Qed.

(** ** Statements *)

Lemma SelectExists_fresh (stmt : Select) : SelectExists stmt <> stmt.
Proof.
  induction stmt; intros Heq; try discriminate Heq.
  injection Heq as Heq; auto.
Qed.

Lemma SelectCount_fresh (stmt : Select) : SelectCount stmt <> stmt.
Proof.
  induction stmt; intros Heq; try discriminate Heq.
  injection Heq as Heq; auto.
Qed.

(** ** The reference session keeps the contract *)

Lemma table_session_sql (db : string -> result (list Row)) :
  sql_session (table_session db).
Proof.
  constructor; simpl.
  - intros n stmt rows H; rewrite H; reflexivity.
  - intros stmt rows H; rewrite H; reflexivity.
  - intros stmt rows H; rewrite H; reflexivity.
  - reflexivity.
Qed.

(** ** What the other methods compute from the session's answer *)

Lemma iterator_unfold (self : Query) (stmt : Select) (batch_size : Z) :
  0 < batch_size ->
  iterator self stmt batch_size =
  mkG [CallStream (ExecutionOptions batch_size stmt)]
      match stream_rows (dbsession self) (ExecutionOptions batch_size stmt) with
      | inl _ => []
      | inr rows => map col0 rows
      end
      match stream_rows (dbsession self) (ExecutionOptions batch_size stmt) with
      | inl e => inl e
      | inr _ => inr tt
      end.
Proof.
  intros Hsize.
  unfold iterator, gen_await, stream, execution_options.
  destruct (stream_rows (dbsession self) (ExecutionOptions batch_size stmt))
    as [e | rows]; [reflexivity|].
  unfold row_getitem0, AsyncResult_partitions.
  rewrite gen_for_batches, concat_fetch_partitions by lia.
  reflexivity.
Qed.

Lemma count_unfold (self : Query) (stmt : Select) :
  count self stmt =
  ([CallScalars (SelectCount stmt)],
   match execute (dbsession self) (SelectCount stmt) with
   | inl ex => inl ex
   | inr rows =>
       match ScalarResult_one (map col0 rows) with
       | inl ex => inl ex
       | inr n => if truthy n then py_int n else inr 0
       end
   end).
Proof.
  unfold count, sa_select_count_from_subquery, scalars, bind, lift, ret.
  destruct (execute (dbsession self) (SelectCount stmt)) as [ex | rows];
    [reflexivity|].
  destruct (ScalarResult_one (map col0 rows)) as [ex | n]; [reflexivity|].
  destruct (truthy n); [destruct (py_int n)|]; reflexivity.
Qed.

Lemma exists_unfold (self : Query) (stmt : Select) :
  exists_ self stmt =
  ([CallScalars (SelectExists stmt)],
   match execute (dbsession self) (SelectExists stmt) with
   | inl ex => inl ex
   | inr rows =>
       match ScalarResult_one (map col0 rows) with
       | inl ex => inl ex
       | inr v => inr (is_True v)
       end
   end).
Proof.
  unfold exists_, sa_select_exists, scalars, bind, lift, ret.
  destruct (execute (dbsession self) (SelectExists stmt)) as [ex | rows];
    [reflexivity|].
  destruct (ScalarResult_one (map col0 rows)); reflexivity.
Qed.

(** The count of a session that keeps the contract. *)
Lemma count_rows (self : Query) (stmt : Select) (rows : list Row) :
  sql_session (dbsession self) ->
  yields self stmt rows ->
  count self stmt = ([CallScalars (SelectCount stmt)], inr (Z.of_nat (length rows))).
Proof.
  intros Hsql Hrows.
  rewrite count_unfold, (count_row _ Hsql stmt rows Hrows); simpl.
  destruct (Z.eqb_spec (Z.of_nat (length rows)) 0) as [Hz | Hnz]; simpl.
  - rewrite Hz; reflexivity.
  - reflexivity.
Qed.

(** A loop whose body leaves the session alone leaves it alone, whether
    the body raises or not. *)
Lemma gen_for_no_calls {A Y} (body : A -> G Y) (xs : list A) :
  (forall x, gen_calls (body x) = []) -> gen_calls (gen_for xs body) = [].
Proof.
  intros Hbody.
  induction xs as [|x xs IH]; simpl; [reflexivity|].
  unfold gen_seq. destruct (stopped (body x)); simpl.
  - apply Hbody.
  - rewrite Hbody, IH; reflexivity.
Qed.

Lemma choice_of_no_calls (lg vg : pyval -> result pyval) (item : pyval) :
  gen_calls (choice_of lg vg item) = [].
Proof.
  unfold choice_of, gen_call.
  destruct (vg item); [reflexivity|].
  destruct (lg item); reflexivity.
Qed.

Lemma choices_unfold (self : Query) (stmt : Select) (label_attr value_attr : selector) :
  choices self stmt label_attr value_attr =
  match outcome (all self stmt) with
  | inl e => mkG (calls (all self stmt)) [] (inl e)
  | inr rows =>
      gen_seq (mkG (calls (all self stmt)) [] (inr tt))
              (gen_for (items rows)
                       (choice_of (getter_of label_attr) (getter_of value_attr)))
  end.
Proof.
  unfold choices, gen_await, calls, outcome, Collection_iter.
  destruct (all self stmt) as [t [e | rows]]; reflexivity.
Qed.

(** * Theorems *)

(** Rewrite a cardinality method down to the session's answer [H]. *)
Ltac answer_with H :=
  rewrite ?one_or_raise_unfold, ?one_or_default_unfold, ?one_or_none_unfold,
          ?one_unfold;
  simpl; rewrite H; simpl.

(** ** Cardinality methods *)

(** C1.  [one] returns the single row when the statement yields exactly one
    row, fails with [NoResultError] when it yields none and with
    [MultipleResultsError] when it yields more than one; a fault of the
    session that is neither a [NoResultFound] nor a [MultipleResultsFound]
    reaches the caller as the session raised it.  In every case the session
    is asked once, for the statement itself. *)
Theorem one_cardinality (self : Query) (stmt : Select) :
  (forall r, yields self stmt [r] ->
     one self stmt = ([CallScalars stmt], inr (col0 r))) /\
  (yields self stmt [] ->
     one self stmt = ([CallScalars stmt], inl NoResult_from_one)) /\
  (forall r1 r2 rest, yields self stmt (r1 :: r2 :: rest) ->
     one self stmt = ([CallScalars stmt], inl MultipleResults_from_one)) /\
  (forall ex, faults self stmt ex ->
     isinstance ex NoResultFound = false ->
     isinstance ex MultipleResultsFound = false ->
     one self stmt = ([CallScalars stmt], inl ex)).
Proof.
  unfold yields, faults.
  repeat split; intros; rewrite one_unfold.
  - rewrite H; reflexivity.
  - rewrite H; reflexivity.
  - rewrite H; reflexivity.
  - rewrite H, H0, H1; reflexivity.
Qed.

Lemma one_cardinality_witness :
  one demo (Table "one_user")
    = ([CallScalars (Table "one_user")], inr (user 1 "a")) /\
  one demo (Table "no_user")
    = ([CallScalars (Table "no_user")], inl NoResult_from_one) /\
  one demo (Table "users")
    = ([CallScalars (Table "users")], inl MultipleResults_from_one) /\
  one demo (Table "dropped")
    = ([CallScalars (Table "dropped")],
       inl (Exc (OtherError "OperationalError") "no such table" None)).
Proof.
  split; [|split; [|split]].
  - apply (proj1 (one_cardinality demo (Table "one_user")) (row1 (user 1 "a"))).
    reflexivity.
  - apply (proj1 (proj2 (one_cardinality demo (Table "no_user")))).
    reflexivity.
  - apply (proj1 (proj2 (proj2 (one_cardinality demo (Table "users"))))
             (row1 (user 1 "a")) (row1 (user 2 "b"))
             (map row1 [user 3 "c"; user 4 "d"; user 5 "e"])).
    reflexivity.
  - apply (proj2 (proj2 (proj2 (one_cardinality demo (Table "dropped"))))).
    + reflexivity.
    + reflexivity.
    + reflexivity.
Defined.

(** C4.  [one_or_none] returns the single row when the statement yields
    exactly one row, [None] when it yields none, and fails with
    [MultipleResultsError] when it yields more than one. *)
Theorem one_or_none_cardinality (self : Query) (stmt : Select) :
  (forall r, yields self stmt [r] ->
     one_or_none self stmt = ([CallScalars stmt], inr (col0 r))) /\
  (yields self stmt [] ->
     one_or_none self stmt = ([CallScalars stmt], inr VNone)) /\
  (forall r1 r2 rest, yields self stmt (r1 :: r2 :: rest) ->
     one_or_none self stmt
     = ([CallScalars stmt], inl MultipleResults_from_one_or_none)).
Proof.
  unfold yields.
  repeat split; intros; rewrite one_or_none_unfold; rewrite H; reflexivity.
Qed.

Lemma one_or_none_cardinality_witness :
  one_or_none demo (Table "one_user")
    = ([CallScalars (Table "one_user")], inr (user 1 "a")) /\
  one_or_none demo (Table "no_user")
    = ([CallScalars (Table "no_user")], inr VNone) /\
  one_or_none demo (Table "two_users")
    = ([CallScalars (Table "two_users")], inl MultipleResults_from_one_or_none).
Proof.
  split; [|split].
  - apply (proj1 (one_or_none_cardinality demo (Table "one_user"))
             (row1 (user 1 "a"))).
    reflexivity.
  - apply (proj1 (proj2 (one_or_none_cardinality demo (Table "no_user")))).
    reflexivity.
  - apply (proj2 (proj2 (one_or_none_cardinality demo (Table "two_users")))
             (row1 (user 1 "a")) (row1 (user 2 "b")) []).
    reflexivity.
Defined.

(** C2.  [one_or_default] returns the default when the statement yields no
    row and also when the single value found is false under truth testing,
    as the integer zero and the empty string are; a single value that is
    true is returned as it is. *)
Theorem one_or_default_falsy (self : Query) (stmt : Select) (d : pyval) :
  (yields self stmt [] -> returns (one_or_default self stmt d) d) /\
  (forall r, yields self stmt [r] -> truthy (col0 r) = false ->
     returns (one_or_default self stmt d) d) /\
  (forall r, yields self stmt [r] -> col0 r = VInt 0 \/ col0 r = VStr "" ->
     returns (one_or_default self stmt d) d) /\
  (forall r, yields self stmt [r] -> truthy (col0 r) = true ->
     returns (one_or_default self stmt d) (col0 r)).
Proof.
  unfold yields, returns.
  repeat split; intros; answer_with H.
  - reflexivity.
  - rewrite H0; reflexivity.
  - destruct H0 as [-> | ->]; reflexivity.
  - rewrite H0; reflexivity.
Qed.

Lemma one_or_default_falsy_witness :
  returns (one_or_default demo (Table "no_user") (VInt 7)) (VInt 7) /\
  returns (one_or_default demo (Table "zero_balance") (VInt 7)) (VInt 7) /\
  returns (one_or_default demo (Table "blank_nickname") (VStr "anon")) (VStr "anon") /\
  returns (one_or_default demo (Table "one_user") (VInt 7)) (user 1 "a").
Proof.
  split; [|split; [|split]].
  - apply (proj1 (one_or_default_falsy demo (Table "no_user") (VInt 7))).
    reflexivity.
  - apply (proj1 (proj2 (one_or_default_falsy demo (Table "zero_balance") (VInt 7)))
             (row1 (VInt 0))).
    + reflexivity.
    + reflexivity.
  - apply (proj1 (proj2 (proj2
             (one_or_default_falsy demo (Table "blank_nickname") (VStr "anon"))))
             (row1 (VStr ""))).
    + reflexivity.
    + right; reflexivity.
  - apply (proj2 (proj2 (proj2 (one_or_default_falsy demo (Table "one_user") (VInt 7))))
             (row1 (user 1 "a"))).
    + reflexivity.
    + reflexivity.
Defined.

(** Where [one_or_raise] keeps to its docstring: it fails with the
    caller's exception, and no other, when the statement yields no row, and
    it returns the single row when the statement yields exactly one row
    whose value is not [None]. *)
Lemma one_or_raise_absent (self : Query) (stmt : Select) (exc : exn) :
  (yields self stmt [] ->
     one_or_raise self stmt exc = ([CallScalars stmt], inl exc)) /\
  (forall r, yields self stmt [r] -> col0 r <> VNone ->
     one_or_raise self stmt exc = ([CallScalars stmt], inr (col0 r))).
Proof.
  unfold yields.
  repeat split; intros; answer_with H.
  - reflexivity.
  - destruct (col0 r); try reflexivity. contradiction H0; reflexivity.
Qed.

Lemma one_or_raise_absent_witness :
  one_or_raise demo (Table "no_user") not_found
    = ([CallScalars (Table "no_user")], inl not_found) /\
  one_or_raise demo (Table "zero_balance") not_found
    = ([CallScalars (Table "zero_balance")], inr (VInt 0)).
Proof.
  split.
  - apply (proj1 (one_or_raise_absent demo (Table "no_user") not_found)).
    reflexivity.
  - apply (proj2 (one_or_raise_absent demo (Table "zero_balance") not_found)
             (row1 (VInt 0))).
    + reflexivity.
    + discriminate.
Defined.

(** C5.  [one_or_raise] is to return the single row whenever the statement
    yields exactly one row, and to raise the caller's exception when no row
    exists.  On a row whose value is [None] it does not: the statement
    below yields exactly one row, [one] returns that row's value, and
    [one_or_raise] raises the caller's exception although the row exists,
    because its test [entity is None] cannot tell the row's value from the
    [None] that [one_or_none] returns for no row. *)
Lemma one_or_raise_null_row :
  yields demo (Table "null_nickname") [row1 VNone] /\
  returns (one demo (Table "null_nickname")) (col0 (row1 VNone)) /\
  returns (one_or_none demo (Table "null_nickname")) (col0 (row1 VNone)) /\
  ~ returns (one_or_raise demo (Table "null_nickname") not_found)
            (col0 (row1 VNone)) /\
  fails (one_or_raise demo (Table "null_nickname") not_found) not_found.
Proof.
  split; [reflexivity|].
  split; [reflexivity|].
  split; [reflexivity|].
  split; [|reflexivity].
  intros H; vm_compute in H; discriminate H.
Qed.

(** C9.  When the statement yields more than one row, [one_or_raise] fails
    with the [MultipleResultsError] that its call of [one_or_none] raised:
    its outcome is that of [one_or_none], it is the same whatever exception
    the caller supplied, and it is not the caller's exception. *)
Theorem one_or_raise_multiple (self : Query) (stmt : Select) (exc : exn)
        (r1 r2 : Row) (rest : list Row) :
  yields self stmt (r1 :: r2 :: rest) ->
  one_or_raise self stmt exc = one_or_none self stmt /\
  fails (one_or_raise self stmt exc) MultipleResults_from_one_or_none /\
  exc_type MultipleResults_from_one_or_none = MultipleResultsError /\
  (forall exc', one_or_raise self stmt exc' = one_or_raise self stmt exc) /\
  (exc <> MultipleResults_from_one_or_none ->
   ~ fails (one_or_raise self stmt exc) exc).
Proof.
  unfold yields, fails. intros H.
  assert (Hany : forall e, one_or_raise self stmt e
                 = ([CallScalars stmt], inl MultipleResults_from_one_or_none)).
  { intros e. answer_with H. reflexivity. }
  repeat split.
  - rewrite Hany, one_or_none_unfold, H; reflexivity.
  - rewrite Hany; reflexivity.
  - intros exc'; rewrite !Hany; reflexivity.
  - intros Hne Hfail. rewrite Hany in Hfail; simpl in Hfail.
    apply Hne. injection Hfail as Hfail. symmetry; exact Hfail.
Qed.

Lemma one_or_raise_multiple_witness :
  one_or_raise demo (Table "two_users") not_found
    = one_or_none demo (Table "two_users") /\
  fails (one_or_raise demo (Table "two_users") not_found)
        MultipleResults_from_one_or_none /\
  ~ fails (one_or_raise demo (Table "two_users") not_found) not_found.
Proof.
  destruct (one_or_raise_multiple demo (Table "two_users") not_found
              (row1 (user 1 "a")) (row1 (user 2 "b")) [] eq_refl)
    as (Hsame & Hfail & _ & _ & Hnot).
  split; [exact Hsame|].
  split; [exact Hfail|].
  apply Hnot. discriminate.
Defined.

(** C10.  [one_or_raise] raises the caller's exception only when
    [one_or_none] returned [None]: any other value is returned as it is and
    any exception of [one_or_none] goes through.  So a single row whose
    value is not [None] but false under truth testing (zero, the empty
    string) is returned by [one_or_raise], while [one_or_default] replaces
    it by its default. *)
Theorem one_or_raise_keeps_falsy (self : Query) (stmt : Select) (exc : exn) :
  outcome (one_or_raise self stmt exc)
  = match outcome (one_or_none self stmt) with
    | inl e => inl e
    | inr v => if is_None v then inl exc else inr v
    end /\
  (forall r d, yields self stmt [r] ->
     col0 r <> VNone -> truthy (col0 r) = false ->
     returns (one_or_raise self stmt exc) (col0 r) /\
     returns (one_or_default self stmt d) d) /\
  (forall r d, yields self stmt [r] ->
     col0 r = VInt 0 \/ col0 r = VStr "" ->
     returns (one_or_raise self stmt exc) (col0 r) /\
     returns (one_or_default self stmt d) d).
Proof.
  unfold yields, returns.
  split; [|split].
  - rewrite one_or_raise_unfold; simpl.
    destruct (outcome (one_or_none self stmt)) as [e | v]; [reflexivity|].
    destruct v; reflexivity.
  - intros r d H Hsome Hfalsy. answer_with H.
    rewrite Hfalsy. split; [|reflexivity].
    destruct (col0 r); try reflexivity. contradiction Hsome; reflexivity.
  - intros r d H Hval. answer_with H.
    destruct Hval as [-> | ->]; split; reflexivity.
Qed.

Lemma one_or_raise_keeps_falsy_witness :
  (returns (one_or_raise demo (Table "zero_balance") not_found) (VInt 0) /\
   returns (one_or_default demo (Table "zero_balance") (VInt 7)) (VInt 7)) /\
  (returns (one_or_raise demo (Table "blank_nickname") not_found) (VStr "") /\
   returns (one_or_default demo (Table "blank_nickname") (VStr "anon")) (VStr "anon")).
Proof.
  split.
  - apply (proj1 (proj2 (one_or_raise_keeps_falsy demo (Table "zero_balance") not_found))
             (row1 (VInt 0)) (VInt 7)).
    + reflexivity.
    + discriminate.
    + reflexivity.
  - apply (proj2 (proj2 (one_or_raise_keeps_falsy demo (Table "blank_nickname") not_found))
             (row1 (VStr "")) (VStr "anon")).
    + reflexivity.
    + right; reflexivity.
Defined.

(** ** Streaming *)

(** C3.  For a positive batch size, and a session that streams under a
    [yield_per] hint the rows it gives for the plain statement, [iterator]
    yields exactly the items of [all], one for one and in the same order,
    and then stops; if the execution faults, it yields nothing and raises
    the fault [all] raises.  The batch size shows only in the round trips:
    in the hint sent to the session and in the batches fetched, none empty
    and none longer than the batch size, which put end to end are the rows.
    Any two positive batch sizes yield the same sequence. *)
Theorem iterator_same_as_all (self : Query) (stmt : Select) (batch_size : Z) :
  0 < batch_size ->
  stream_rows (dbsession self) (execution_options stmt batch_size)
  = execute (dbsession self) stmt ->
  match outcome (all self stmt) with
  | inr rows =>
      yielded (iterator self stmt batch_size) = items rows /\
      stopped (iterator self stmt batch_size) = inr tt
  | inl e =>
      yielded (iterator self stmt batch_size) = [] /\
      stopped (iterator self stmt batch_size) = inl e
  end /\
  gen_calls (iterator self stmt batch_size)
  = [CallStream (execution_options stmt batch_size)] /\
  (forall rows,
     Forall (fun part => (0 < length part <= Z.to_nat batch_size)%nat)
            (AsyncResult_partitions batch_size rows) /\
     concat (AsyncResult_partitions batch_size rows) = rows) /\
  (forall batch_size',
     0 < batch_size' ->
     stream_rows (dbsession self) (execution_options stmt batch_size')
     = execute (dbsession self) stmt ->
     yielded (iterator self stmt batch_size')
     = yielded (iterator self stmt batch_size)).
Proof.
  unfold execution_options. intros Hsize Hstream.
  rewrite (iterator_unfold self stmt batch_size Hsize), Hstream, all_unfold; simpl.
  split; [|split; [|split]].
  - destruct (execute (dbsession self) stmt); split; reflexivity.
  - reflexivity.
  - intros rows. unfold AsyncResult_partitions. split.
    + apply fetch_partitions_sizes.
    + apply concat_fetch_partitions; lia.
  - intros size' Hsize' Hstream'.
    rewrite (iterator_unfold self stmt size' Hsize'), Hstream'; reflexivity.
Qed.

Lemma iterator_same_as_all_witness :
  yielded (iterator demo (Table "users") 2)
    = [user 1 "a"; user 2 "b"; user 3 "c"; user 4 "d"; user 5 "e"] /\
  stopped (iterator demo (Table "users") 2) = inr tt.
Proof.
  exact (proj1 (iterator_same_as_all demo (Table "users") 2 eq_refl eq_refl)).
Defined.

(** ** Aggregates *)

(** C6.  [count] sends the session one statement, the count over the
    caller's statement taken as a sub-query, and never the caller's
    statement itself.  With a session that keeps the contract it returns
    the number of rows the statement yields, so a limit on the statement
    bounds the count; it returns 0 for a statement that yields no row, and
    0 as well, not [None], if the count column comes back null. *)
Theorem count_subquery (self : Query) (stmt : Select) :
  calls (count self stmt) = [CallScalars (sa_select_count_from_subquery stmt)] /\
  ~ In (CallScalars stmt) (calls (count self stmt)) /\
  (sql_session (dbsession self) ->
   forall rows, yields self stmt rows ->
     returns (count self stmt) (Z.of_nat (length rows))) /\
  (sql_session (dbsession self) ->
   forall n rows, yields self stmt rows ->
     returns (count self (Limit n stmt)) (Z.of_nat (Nat.min n (length rows)))) /\
  (sql_session (dbsession self) ->
   yields self stmt [] -> returns (count self stmt) 0) /\
  (execute (dbsession self) (sa_select_count_from_subquery stmt) = inr [row1 VNone] ->
   returns (count self stmt) 0).
Proof.
  unfold returns, sa_select_count_from_subquery.
  split; [|split; [|split; [|split; [|split]]]].
  - rewrite count_unfold; reflexivity.
  - rewrite count_unfold; simpl. intros [Heq | []].
    injection Heq as Heq. exact (SelectCount_fresh stmt Heq).
  - intros Hsql rows Hrows. rewrite (count_rows self stmt rows Hsql Hrows); reflexivity.
  - intros Hsql n rows Hrows.
    assert (Hlim : yields self (Limit n stmt) (firstn n rows))
      by exact (limit_rows _ Hsql n stmt rows Hrows).
    rewrite (count_rows self (Limit n stmt) _ Hsql Hlim); simpl.
    rewrite length_firstn; reflexivity.
  - intros Hsql Hrows. rewrite (count_rows self stmt [] Hsql Hrows); reflexivity.
  - intros Hnull. rewrite count_unfold, Hnull; reflexivity.
Qed.

Lemma count_subquery_witness :
  returns (count demo (Table "users")) 5 /\
  returns (count demo (Limit 2 (Table "users"))) 2 /\
  returns (count demo (Table "no_user")) 0.
Proof.
  pose proof (count_subquery demo (Table "users")) as (_ & _ & Hn & Hlim & _ & _).
  pose proof (count_subquery demo (Table "no_user")) as (_ & _ & _ & _ & Hzero & _).
  split; [|split].
  - apply (Hn (table_session_sql demo_db)
              (map row1 [user 1 "a"; user 2 "b"; user 3 "c"; user 4 "d"; user 5 "e"])).
    reflexivity.
  - apply (Hlim (table_session_sql demo_db) 2%nat
                (map row1 [user 1 "a"; user 2 "b"; user 3 "c"; user 4 "d"; user 5 "e"])).
    reflexivity.
  - apply (Hzero (table_session_sql demo_db)). reflexivity.
Defined.

(** C7.  [exists_] sends the session one statement, the EXISTS probe around
    the caller's statement, and never the caller's statement itself.  With
    a session that keeps the contract it returns true exactly when the
    statement yields at least one row, and false when it yields none. *)
Theorem exists_probe (self : Query) (stmt : Select) :
  calls (exists_ self stmt) = [CallScalars (sa_select_exists stmt)] /\
  ~ In (CallScalars stmt) (calls (exists_ self stmt)) /\
  ~ In (CallStream stmt) (calls (exists_ self stmt)) /\
  (sql_session (dbsession self) ->
   forall rows, yields self stmt rows ->
     exists b, returns (exists_ self stmt) b /\ (b = true <-> rows <> [])) /\
  (sql_session (dbsession self) ->
   yields self stmt [] -> returns (exists_ self stmt) false).
Proof.
  unfold returns, sa_select_exists.
  split; [|split; [|split; [|split]]].
  - rewrite exists_unfold; reflexivity.
  - rewrite exists_unfold; simpl. intros [Heq | []].
    injection Heq as Heq. exact (SelectExists_fresh stmt Heq).
  - rewrite exists_unfold; simpl. intros [Heq | []]. discriminate Heq.
  - intros Hsql rows Hrows.
    rewrite exists_unfold, (exists_row _ Hsql stmt rows Hrows); simpl.
    destruct rows as [|r rest]; simpl.
    + exists false. split; [reflexivity|]. split; [discriminate | intros H; contradiction H; reflexivity].
    + exists true. split; [reflexivity|]. split; [discriminate | reflexivity].
  - intros Hsql Hrows.
    rewrite exists_unfold, (exists_row _ Hsql stmt [] Hrows); reflexivity.
Qed.

Lemma exists_probe_witness :
  returns (exists_ demo (Table "one_user")) true /\
  returns (exists_ demo (Table "no_user")) false.
Proof.
  pose proof (exists_probe demo (Table "one_user")) as (_ & _ & _ & Hiff & _).
  pose proof (exists_probe demo (Table "no_user")) as (_ & _ & _ & _ & Hnone).
  split.
  - destruct (Hiff (table_session_sql demo_db) [row1 (user 1 "a")] eq_refl)
      as (b & Hb & Htrue).
    rewrite (proj2 Htrue) in Hb; [exact Hb | discriminate].
  - apply (Hnone (table_session_sql demo_db)). reflexivity.
Defined.

(** ** Projection *)

(** C8.  [choices] gets its rows from [all]: it asks the session what [all]
    asks, and if [all] fails it yields nothing and fails the same way.
    When both getters succeed on every row it yields one (value, label)
    pair per row, in the order of the rows, and stops.  A selector that is
    a name is resolved with [attrgetter], which for an undotted name is
    [getattr] on the row; a selector that is a callable is applied to the
    row.  By default the label is [str] of the row and the value its [id]
    attribute.  On the two rows of the spec's example, with the selectors
    "name" and "id", the pairs are (1, "a") and (2, "b"), in that order. *)
Theorem choices_pairs (self : Query) (stmt : Select) (label_attr value_attr : selector) :
  gen_calls (choices self stmt label_attr value_attr) = calls (all self stmt) /\
  (forall e, fails (all self stmt) e ->
     yielded (choices self stmt label_attr value_attr) = [] /\
     stopped (choices self stmt label_attr value_attr) = inl e) /\
  (forall rows (fv fl : pyval -> pyval),
     returns (all self stmt) rows ->
     (forall item, In item (items rows) ->
        getter_of value_attr item = inr (fv item) /\
        getter_of label_attr item = inr (fl item)) ->
     yielded (choices self stmt label_attr value_attr)
     = map (fun item => (fv item, fl item)) (items rows) /\
     stopped (choices self stmt label_attr value_attr) = inr tt) /\
  (forall name item, getter_of (AttrName name) item = attrgetter name item) /\
  (forall name item, has_dot name = false ->
     getter_of (AttrName name) item = getattr item name) /\
  (forall f item, getter_of (Callable f) item = f item) /\
  (forall item, getter_of default_label_attr item = inr (VStr (py_str item))) /\
  (forall item, getter_of default_value_attr item = getattr item "id") /\
  (forall repr1 repr2,
     yields self stmt (example_rows repr1 repr2) ->
     yielded (choices self stmt (AttrName "name") (AttrName "id"))
     = [(VInt 1, VStr "a"); (VInt 2, VStr "b")]).
Proof.
  unfold fails, returns, yields.
  split; [|split; [|split; [|split; [|split; [|split; [|split; [|split]]]]]]].
  - rewrite choices_unfold.
    destruct (outcome (all self stmt)) as [e | rows]; [reflexivity|].
    unfold gen_seq; simpl.
    rewrite gen_for_no_calls by (intros x; apply choice_of_no_calls).
    apply app_nil_r.
  - intros e He. rewrite choices_unfold, He; split; reflexivity.
  - intros rows fv fl Hrows Hok.
    rewrite choices_unfold, Hrows.
    unfold choice_of.
    rewrite (gen_for_getters _ _ fv fl (items rows) Hok).
    split; reflexivity.
  - reflexivity.
  - intros name item Hname. apply attrgetter_plain; exact Hname.
  - reflexivity.
  - reflexivity.
  - intros item. apply attrgetter_plain; reflexivity.
  - intros repr1 repr2 Hrows.
    rewrite choices_unfold, all_unfold; simpl. rewrite Hrows; reflexivity.
Qed.

Lemma choices_pairs_witness :
  yielded (choices demo (Table "two_users") (AttrName "name") (AttrName "id"))
    = [(VInt 1, VStr "a"); (VInt 2, VStr "b")] /\
  yielded (choices demo (Table "two_users") default_label_attr default_value_attr)
    = [(VInt 1, VStr "User a"); (VInt 2, VStr "User b")] /\
  stopped (choices demo (Table "dropped") default_label_attr default_value_attr)
    = inl (Exc (OtherError "OperationalError") "no such table" None).
Proof.
  pose proof (choices_pairs demo (Table "two_users") (AttrName "name") (AttrName "id"))
    as (_ & _ & _ & _ & _ & _ & _ & _ & Hexample).
  pose proof (choices_pairs demo (Table "two_users") default_label_attr default_value_attr)
    as (_ & _ & Hpairs & _).
  pose proof (choices_pairs demo (Table "dropped") default_label_attr default_value_attr)
    as (_ & Hfail & _).
  split; [|split].
  - apply (Hexample "User a" "User b"). reflexivity.
  - apply (proj1 (Hpairs (mkCollection [user 1 "a"; user 2 "b"])
                         (fun item => match getattr item "id" with
                                      | inr v => v
                                      | inl _ => VNone
                                      end)
                         (fun item => VStr (py_str item))
                         eq_refl
                         (fun item Hin =>
                            match Hin with
                            | or_introl Heq =>
                                match Heq with eq_refl => conj eq_refl eq_refl end
                            | or_intror (or_introl Heq) =>
                                match Heq with eq_refl => conj eq_refl eq_refl end
                            | or_intror (or_intror Hnone) =>
                                match Hnone with end
                            end))).
  - apply (proj2 (Hfail _ eq_refl)).
Defined.

(** * Further properties *)

(** ** Helper lemmas *)

(** The pairs a [choices] loop yields are the projections of a prefix of
    the items; the loop ends after the last item, or at the first item on
    which a getter raises. *)
Lemma gen_for_choice_prefix (lg vg : pyval -> result pyval) (xs : list pyval) :
  exists n,
    (n <= length xs)%nat /\
    Forall2 (projects lg vg) (firstn n xs) (yielded (gen_for xs (choice_of lg vg))) /\
    match stopped (gen_for xs (choice_of lg vg)) with
    | inr _ => n = length xs
    | inl e => exists item, nth_error xs n = Some item /\ getter_raised lg vg item e
    end.
Proof.
  induction xs as [|x xs IH].
  - exists 0%nat. simpl. repeat split; constructor.
  - destruct IH as (n & Hle & Hpairs & Hstop).
    simpl gen_for.
    remember (gen_for xs (choice_of lg vg)) as rest eqn:Hrest.
    unfold choice_of, gen_call.
    destruct (vg x) as [e | v] eqn:Hv.
    + exists 0%nat. simpl. repeat split; [lia | constructor |].
      exists x. split; [reflexivity | left; exact Hv].
    + destruct (lg x) as [e | l] eqn:Hl.
      * exists 0%nat. simpl. repeat split; [lia | constructor |].
        exists x. split; [reflexivity | right; exists v; split; assumption].
      * exists (S n). unfold gen_seq; simpl. repeat split.
        -- lia.
        -- constructor; [split; assumption | exact Hpairs].
        -- destruct (stopped rest) as [e | u].
           ++ exact Hstop.
           ++ rewrite Hstop; reflexivity.
Qed.

Lemma split_dots_dotted (a b : string) :
  has_dot a = false ->
  split_dots (a ++ String "."%char b)%string = a :: split_dots b.
Proof.
  induction a as [|c rest IH]; simpl; [reflexivity|].
  destruct (Ascii.eqb c "."); simpl; [discriminate|].
  intros Hrest; rewrite (IH Hrest); reflexivity.
Qed.

Lemma is_True_spec (v : pyval) : is_True v = true <-> v = VBool true.
Proof.
  split.
  - destruct v as [|[|]| | |]; simpl; intros H; try discriminate H; reflexivity.
  - intros ->; reflexivity.
Qed.

Lemma exists_rows (self : Query) (stmt : Select) (rows : list Row) :
  sql_session (dbsession self) ->
  yields self stmt rows ->
  exists_ self stmt
  = ([CallScalars (SelectExists stmt)], inr (negb (Nat.eqb (length rows) 0))).
Proof.
  intros Hsql Hrows.
  rewrite exists_unfold, (exists_row _ Hsql stmt rows Hrows); simpl.
  destruct (Nat.eqb (length rows) 0); reflexivity.
Qed.

(** ** Error translation in [one] and [one_or_none] *)

(** X1.  No bare SQLAlchemy cardinality exception leaves [one]: whatever it
    raises that is a [NoResultFound] or a [MultipleResultsFound] is one of
    this module's two errors, hence a [QueryError], and carries as its
    cause the SQLAlchemy exception it stands for. *)
Theorem one_errors_are_query_errors (self : Query) (stmt : Select) (e : exn) :
  fails (one self stmt) e ->
  isinstance e NoResultFound = true \/ isinstance e MultipleResultsFound = true ->
  (exc_type e = NoResultError \/ exc_type e = MultipleResultsError) /\
  isinstance e QueryError = true /\
  exists ex, exc_cause e = Some ex /\
             (isinstance ex NoResultFound = true \/
              isinstance ex MultipleResultsFound = true).
Proof.
  unfold fails. rewrite one_unfold; simpl.
  destruct (execute (dbsession self) stmt) as [ex | [|r1 [|r2 rest]]].
  - destruct (isinstance ex NoResultFound) eqn:Hno.
    + intros [= <-] _. split; [left; reflexivity|]. split; [reflexivity|].
      exists ex. split; [reflexivity | left; exact Hno].
    + destruct (isinstance ex MultipleResultsFound) eqn:Hmany.
      * intros [= <-] _. split; [right; reflexivity|]. split; [reflexivity|].
        exists ex. split; [reflexivity | right; exact Hmany].
      * intros [= <-] [H | H]; congruence.
  - intros [= <-] _. split; [left; reflexivity|]. split; [reflexivity|].
    eexists. split; [reflexivity | left; reflexivity].
  - discriminate.
  - intros [= <-] _. split; [right; reflexivity|]. split; [reflexivity|].
    eexists. split; [reflexivity | right; reflexivity].
Qed.

Lemma one_errors_are_query_errors_witness :
  isinstance NoResult_from_one QueryError = true /\
  isinstance MultipleResults_from_one QueryError = true.
Proof.
  split.
  - apply (one_errors_are_query_errors demo (Table "no_user") NoResult_from_one).
    + reflexivity.
    + left; reflexivity.
  - apply (one_errors_are_query_errors demo (Table "users") MultipleResults_from_one).
    + reflexivity.
    + right; reflexivity.
Defined.

(** X2.  [one_or_none] translates [MultipleResultsFound] only.  When the
    session itself raises a [NoResultFound], [one_or_none] lets it through
    as it is, and so do [one_or_raise] and [one_or_default], while [one]
    wraps it in a [NoResultError]. *)
Theorem one_or_none_passes_NoResultFound (self : Query) (stmt : Select) (ex : exn) :
  faults self stmt ex ->
  isinstance ex NoResultFound = true ->
  isinstance ex MultipleResultsFound = false ->
  one_or_none self stmt = ([CallScalars stmt], inl ex) /\
  (forall exc, one_or_raise self stmt exc = ([CallScalars stmt], inl ex)) /\
  (forall d, one_or_default self stmt d = ([CallScalars stmt], inl ex)) /\
  one self stmt = ([CallScalars stmt], inl (Exc NoResultError "" (Some ex))).
Proof.
  unfold faults. intros H Hno Hmany.
  repeat split; intros; answer_with H; rewrite ?Hno, ?Hmany; reflexivity.
Qed.

Lemma one_or_none_passes_NoResultFound_witness :
  fails (one_or_none blog (Table "expired"))
        (Exc NoResultFound "No row was found when one was required" None) /\
  fails (one blog (Table "expired")) NoResult_from_one.
Proof.
  pose proof (one_or_none_passes_NoResultFound blog (Table "expired")
                (Exc NoResultFound "No row was found when one was required" None)
                eq_refl eq_refl eq_refl) as (Hnone & _ & _ & Hone).
  split.
  - unfold fails. rewrite Hnone. reflexivity.
  - unfold fails. rewrite Hone. reflexivity.
Defined.

(** ** How the cardinality methods relate *)

(** X3.  What [one] returns, [one_or_none] returns; what [one_or_none]
    returns, [one] returns too unless it is [None], and then [one] either
    returns [None] (a row holding it) or fails with [NoResultError]. *)
Theorem one_and_one_or_none (self : Query) (stmt : Select) (v : pyval) :
  (returns (one self stmt) v -> returns (one_or_none self stmt) v) /\
  (returns (one_or_none self stmt) v -> v <> VNone -> returns (one self stmt) v) /\
  (returns (one_or_none self stmt) VNone ->
   returns (one self stmt) VNone \/ fails (one self stmt) NoResult_from_one).
Proof.
  unfold returns, fails. rewrite one_unfold, one_or_none_unfold; simpl.
  destruct (execute (dbsession self) stmt) as [ex | [|r1 [|r2 rest]]].
  - destruct (isinstance ex NoResultFound), (isinstance ex MultipleResultsFound);
      repeat split; discriminate.
  - split; [discriminate|]. split.
    + intros [= <-] Hv. contradiction Hv; reflexivity.
    + intros _; right; reflexivity.
  - split; [exact (fun H => H)|]. split; [exact (fun H _ => H)|].
    intros H; left; exact H.
  - repeat split; discriminate.
Qed.

Lemma one_and_one_or_none_witness :
  returns (one_or_none demo (Table "one_user")) (user 1 "a") /\
  returns (one demo (Table "zero_balance")) (VInt 0).
Proof.
  split.
  - apply (proj1 (one_and_one_or_none demo (Table "one_user") (user 1 "a"))).
    reflexivity.
  - apply (proj1 (proj2 (one_and_one_or_none demo (Table "zero_balance") (VInt 0)))).
    + reflexivity.
    + discriminate.
Defined.

(** X4.  [one] returns a value exactly when [all] returns the collection
    holding that value and nothing else. *)
Theorem one_iff_all_singleton (self : Query) (stmt : Select) (v : pyval) :
  returns (one self stmt) v <-> returns (all self stmt) (mkCollection [v]).
Proof.
  unfold returns. rewrite one_unfold, all_unfold; simpl.
  destruct (execute (dbsession self) stmt) as [ex | [|r1 [|r2 rest]]]; simpl.
  - destruct (isinstance ex NoResultFound), (isinstance ex MultipleResultsFound);
      split; discriminate.
  - split; discriminate.
  - split; intros [= <-]; reflexivity.
  - split; discriminate.
Qed.

Lemma one_iff_all_singleton_witness :
  returns (all demo (Table "one_user")) (mkCollection [user 1 "a"]) /\
  returns (one demo (Table "blank_nickname")) (VStr "").
Proof.
  split.
  - apply (proj1 (one_iff_all_singleton demo (Table "one_user") (user 1 "a"))).
    reflexivity.
  - apply (proj2 (one_iff_all_singleton demo (Table "blank_nickname") (VStr ""))).
    reflexivity.
Defined.

(** X5.  [one_or_raise] never returns [None]: what it returns is what
    [one_or_none] returned, and that was not [None].  When it fails, either
    [one_or_none] failed the same way, or [one_or_none] returned [None] and
    the exception is the caller's. *)
Theorem one_or_raise_never_None (self : Query) (stmt : Select) (exc : exn) :
  (forall v, returns (one_or_raise self stmt exc) v ->
     v <> VNone /\ returns (one_or_none self stmt) v) /\
  (forall e, fails (one_or_raise self stmt exc) e ->
     fails (one_or_none self stmt) e \/
     (e = exc /\ returns (one_or_none self stmt) VNone)).
Proof.
  unfold returns, fails. rewrite one_or_raise_unfold; simpl.
  destruct (outcome (one_or_none self stmt)) as [e0 | v0].
  - split; [discriminate|]. intros e H; left; exact H.
  - destruct v0; split;
      try (intros v [= <-]; split; [discriminate | reflexivity]);
      try discriminate.
    + intros e [= <-]. right; split; reflexivity.
Qed.

Lemma one_or_raise_never_None_witness :
  VInt 0 <> VNone /\ returns (one_or_none demo (Table "zero_balance")) (VInt 0).
Proof.
  apply (proj1 (one_or_raise_never_None demo (Table "zero_balance") not_found)).
  reflexivity.
Defined.

(** X6.  What [one_or_default] returns is true under truth testing, and is
    then what [one_or_none] returned, or it is the default.  It fails
    exactly when [one_or_none] fails, with the same exception: the default
    never stands in for a [MultipleResultsError] or a session fault. *)
Theorem one_or_default_truthy_or_default (self : Query) (stmt : Select) (d : pyval) :
  (forall v, returns (one_or_default self stmt d) v ->
     (truthy v = true /\ returns (one_or_none self stmt) v) \/ v = d) /\
  (forall e, fails (one_or_default self stmt d) e <-> fails (one_or_none self stmt) e).
Proof.
  unfold returns, fails. rewrite one_or_default_unfold; simpl.
  destruct (outcome (one_or_none self stmt)) as [e0 | v0].
  - split; [discriminate|]. intros e; split; exact (fun H => H).
  - split.
    + intros v. destruct (truthy v0) eqn:Hv0; intros [= <-].
      * left; split; [exact Hv0 | reflexivity].
      * right; reflexivity.
    + intros e; split; discriminate.
Qed.

Lemma one_or_default_truthy_or_default_witness :
  fails (one_or_default demo (Table "two_users") (VInt 7))
        MultipleResults_from_one_or_none.
Proof.
  apply (proj2 (one_or_default_truthy_or_default demo (Table "two_users") (VInt 7))).
  reflexivity.
Defined.

(** ** Faults outside [one] and [one_or_none] *)

(** X7.  [all], [choices], [iterator], [exists_] and [count] have no
    [except] clause: a fault of the session on the statement they send,
    of whatever class, a [NoResultFound] included, reaches the caller as
    the session raised it, and the generators yield nothing before it. *)
Theorem bulk_methods_pass_faults (self : Query) (stmt : Select) (ex : exn)
        (batch_size : Z) (label_attr value_attr : selector) :
  (faults self stmt ex ->
     all self stmt = ([CallScalars stmt], inl ex) /\
     choices self stmt label_attr value_attr = mkG [CallScalars stmt] [] (inl ex)) /\
  (stream_rows (dbsession self) (execution_options stmt batch_size) = inl ex ->
     iterator self stmt batch_size
     = mkG [CallStream (execution_options stmt batch_size)] [] (inl ex)) /\
  (faults self (sa_select_exists stmt) ex ->
     exists_ self stmt = ([CallScalars (sa_select_exists stmt)], inl ex)) /\
  (faults self (sa_select_count_from_subquery stmt) ex ->
     count self stmt = ([CallScalars (sa_select_count_from_subquery stmt)], inl ex)).
Proof.
  unfold faults, sa_select_exists, sa_select_count_from_subquery, execution_options.
  split; [|split; [|split]].
  - intros H. split.
    + rewrite all_unfold, H; reflexivity.
    + rewrite choices_unfold, all_unfold; simpl. rewrite H; reflexivity.
  - intros H. unfold iterator, gen_await, stream, execution_options.
    rewrite H; reflexivity.
  - intros H. rewrite exists_unfold, H; reflexivity.
  - intros H. rewrite count_unfold, H; reflexivity.
Qed.

Lemma bulk_methods_pass_faults_witness :
  fails (all blog (Table "expired"))
        (Exc NoResultFound "No row was found when one was required" None) /\
  fails (count blog (Table "expired"))
        (Exc NoResultFound "No row was found when one was required" None).
Proof.
  pose proof (bulk_methods_pass_faults blog (Table "expired")
                (Exc NoResultFound "No row was found when one was required" None)
                default_batch_size default_label_attr default_value_attr)
    as (Hall & _ & _ & Hcount).
  split.
  - unfold fails. rewrite (proj1 (Hall eq_refl)). reflexivity.
  - unfold fails. rewrite (Hcount eq_refl). reflexivity.
Defined.

(** X8.  [exists_] tests the probe's value with [is True]: given a single
    row it always returns, and it returns true only when that row holds
    the boolean [True] itself; a driver's integer 1 gives false. *)
Theorem exists_true_only_for_True (self : Query) (stmt : Select) (r : Row) :
  yields self (sa_select_exists stmt) [r] ->
  exists b, returns (exists_ self stmt) b /\ (b = true <-> col0 r = VBool true).
Proof.
  unfold yields, returns, sa_select_exists. intros H.
  rewrite exists_unfold, H; simpl.
  exists (is_True (col0 r)). split; [reflexivity | apply is_True_spec].
Qed.

Lemma exists_true_only_for_True_witness :
  returns (exists_ untyped (Table "users")) false.
Proof.
  destruct (exists_true_only_for_True untyped (Table "users") (row1 (VInt 1)) eq_refl)
    as (b & Hb & Htrue).
  destruct b; [|exact Hb].
  discriminate (proj1 Htrue eq_refl).
Defined.

(** X9.  The [one()] inside [exists_] and [count] is not guarded: if the
    session answers the wrapping statement with no row, or with several,
    they fail with SQLAlchemy's own [NoResultFound] or
    [MultipleResultsFound], which is not a [QueryError]. *)
Theorem aggregates_raise_bare_errors (self : Query) (stmt : Select) :
  (yields self (sa_select_count_from_subquery stmt) [] ->
     exists e, fails (count self stmt) e /\
               exc_type e = NoResultFound /\ isinstance e QueryError = false) /\
  (yields self (sa_select_exists stmt) [] ->
     exists e, fails (exists_ self stmt) e /\
               exc_type e = NoResultFound /\ isinstance e QueryError = false) /\
  (forall r1 r2 rest, yields self (sa_select_count_from_subquery stmt) (r1 :: r2 :: rest) ->
     exists e, fails (count self stmt) e /\
               exc_type e = MultipleResultsFound /\ isinstance e QueryError = false) /\
  (forall r1 r2 rest, yields self (sa_select_exists stmt) (r1 :: r2 :: rest) ->
     exists e, fails (exists_ self stmt) e /\
               exc_type e = MultipleResultsFound /\ isinstance e QueryError = false).
Proof.
  unfold yields, fails, sa_select_count_from_subquery, sa_select_exists.
  repeat split; intros; rewrite ?count_unfold, ?exists_unfold; rewrite H; simpl;
    eexists; repeat split; reflexivity.
Qed.

Lemma aggregates_raise_bare_errors_witness :
  exists e, fails (count untyped (Table "users")) e /\
            exc_type e = NoResultFound /\ isinstance e QueryError = false.
Proof.
  apply (proj1 (aggregates_raise_bare_errors untyped (Table "users"))).
  reflexivity.
Defined.

(** ** How the bulk and aggregate methods relate *)

(** X10.  With a session that keeps the contract, whenever [all] returns a
    collection, [count] returns its length, [exists_] returns whether it
    is non-empty, and [iterator], for a positive batch size, yields as
    many items. *)
Theorem aggregates_agree_with_all (self : Query) (stmt : Select) (c : Collection) :
  sql_session (dbsession self) ->
  returns (all self stmt) c ->
  returns (count self stmt) (Z.of_nat (length (items c))) /\
  returns (exists_ self stmt) (negb (Nat.eqb (length (items c)) 0)) /\
  (forall batch_size, 0 < batch_size ->
     yielded (iterator self stmt batch_size) = items c).
Proof.
  unfold returns. intros Hsql. rewrite all_unfold; simpl.
  destruct (execute (dbsession self) stmt) as [ex | rows] eqn:Hrows; [discriminate|].
  intros [= <-]; simpl. rewrite length_map.
  split; [|split].
  - rewrite (count_rows self stmt rows Hsql Hrows); reflexivity.
  - rewrite (exists_rows self stmt rows Hsql Hrows); reflexivity.
  - intros batch_size Hsize.
    rewrite (iterator_unfold self stmt batch_size Hsize).
    rewrite (stream_hint _ Hsql), Hrows; reflexivity.
Qed.

Lemma aggregates_agree_with_all_witness :
  returns (count demo (Table "two_users")) 2 /\
  returns (exists_ demo (Table "two_users")) true /\
  yielded (iterator demo (Table "two_users") 1) = [user 1 "a"; user 2 "b"].
Proof.
  destruct (aggregates_agree_with_all demo (Table "two_users")
              (mkCollection [user 1 "a"; user 2 "b"])
              (table_session_sql demo_db) eq_refl)
    as (Hcount & Hexists & Hiter).
  split; [exact Hcount|]. split; [exact Hexists|].
  apply Hiter. reflexivity.
Defined.

(** X11.  With a session that keeps the contract and a statement that
    executes without fault, [one] returns a value exactly when [count]
    returns 1, [one] fails with [NoResultError] exactly when [count]
    returns 0, and [one_or_none] fails with [MultipleResultsError] exactly
    when [count] returns more than 1. *)
Theorem one_iff_count_one (self : Query) (stmt : Select) (rows : list Row) :
  sql_session (dbsession self) ->
  yields self stmt rows ->
  ((exists v, returns (one self stmt) v) <-> returns (count self stmt) 1) /\
  (fails (one self stmt) NoResult_from_one <-> returns (count self stmt) 0) /\
  (fails (one_or_none self stmt) MultipleResults_from_one_or_none <->
   exists n, returns (count self stmt) n /\ 1 < n).
Proof.
  unfold returns, fails. intros Hsql Hrows.
  rewrite (count_rows self stmt rows Hsql Hrows), one_unfold, one_or_none_unfold; simpl.
  unfold yields in Hrows. rewrite Hrows.
  destruct rows as [|r1 [|r2 rest]].
  - split; [|split].
    + split; [intros [v Hv]; discriminate Hv | discriminate].
    + split; reflexivity.
    + split; [discriminate | intros (n & Hn & Hlt)].
      assert (Hz : Z.of_nat (length (@nil Row)) = n) by congruence.
      cbn [length] in Hz. lia.
  - split; [|split].
    + split; [reflexivity | intros _; exists (col0 r1); reflexivity].
    + split; [discriminate|]. intros H.
      assert (Hz : Z.of_nat (length [r1]) = 0) by congruence.
      cbn [length] in Hz. lia.
    + split; [discriminate | intros (n & Hn & Hlt)].
      assert (Hz : Z.of_nat (length [r1]) = n) by congruence.
      cbn [length] in Hz. lia.
  - split; [|split].
    + split; [intros [v Hv]; discriminate Hv|].
      intros H.
      assert (Hn : Z.of_nat (length (r1 :: r2 :: rest)) = 1) by congruence.
      cbn [length] in Hn. lia.
    + split; [discriminate|]. intros H.
      assert (Hn : Z.of_nat (length (r1 :: r2 :: rest)) = 0) by congruence.
      cbn [length] in Hn. lia.
    + split; [|reflexivity]. intros _. eexists. split; [reflexivity|].
      cbn [length]. lia.
Qed.

Lemma one_iff_count_one_witness :
  (exists v, returns (one demo (Table "one_user")) v) /\
  fails (one demo (Table "no_user")) NoResult_from_one.
Proof.
  split.
  - apply (proj2 (proj1 (one_iff_count_one demo (Table "one_user") [row1 (user 1 "a")]
                           (table_session_sql demo_db) eq_refl))).
    reflexivity.
  - apply (proj2 (proj1 (proj2 (one_iff_count_one demo (Table "no_user") []
                                  (table_session_sql demo_db) eq_refl)))).
    reflexivity.
Defined.

(** ** [choices] when a getter raises *)

(** What [choices] does after [all] returned, as a loop over its items. *)
Lemma choices_after_all (self : Query) (stmt : Select) (label_attr value_attr : selector)
      (rows : Collection) :
  returns (all self stmt) rows ->
  yielded (choices self stmt label_attr value_attr)
  = yielded (gen_for (items rows)
                     (choice_of (getter_of label_attr) (getter_of value_attr))) /\
  stopped (choices self stmt label_attr value_attr)
  = stopped (gen_for (items rows)
                     (choice_of (getter_of label_attr) (getter_of value_attr))).
Proof.
  unfold returns. intros Hrows.
  rewrite choices_unfold, Hrows. unfold gen_seq; simpl.
  split; reflexivity.
Qed.

(** X12.  Whatever the getters do, the pairs [choices] yields are the
    projections, in order, of the first n rows, for some n: all the rows
    if it stops normally, and otherwise the rows before the first one on
    which a getter raised, the exception being that getter's.  The value
    getter is tried first: the label getter's exception shows only when
    the value getter succeeded on that row. *)
Theorem choices_prefix (self : Query) (stmt : Select) (label_attr value_attr : selector)
        (rows : Collection) :
  returns (all self stmt) rows ->
  exists n,
    (n <= length (items rows))%nat /\
    length (yielded (choices self stmt label_attr value_attr)) = n /\
    Forall2 (projects (getter_of label_attr) (getter_of value_attr))
            (firstn n (items rows))
            (yielded (choices self stmt label_attr value_attr)) /\
    match stopped (choices self stmt label_attr value_attr) with
    | inr _ => n = length (items rows)
    | inl e =>
        exists item, nth_error (items rows) n = Some item /\
                     getter_raised (getter_of label_attr) (getter_of value_attr) item e
    end.
Proof.
  intros Hrows.
  destruct (choices_after_all self stmt label_attr value_attr rows Hrows) as [-> ->].
  destruct (gen_for_choice_prefix (getter_of label_attr) (getter_of value_attr) (items rows))
    as (n & Hle & Hpairs & Hstop).
  exists n. split; [exact Hle|]. split; [|split; assumption].
  rewrite <- (Forall2_length Hpairs), length_firstn. lia.
Qed.

Lemma choices_prefix_witness :
  exists n,
    (n <= 3)%nat /\
    length (yielded (choices blog (Table "visitors") default_label_attr default_value_attr)) = n /\
    Forall2 (projects (getter_of default_label_attr) (getter_of default_value_attr))
            (firstn n [user 1 "a"; VObj "Guest" [("name", VStr "g")]; user 3 "c"])
            (yielded (choices blog (Table "visitors") default_label_attr default_value_attr)) /\
    exists item,
      nth_error [user 1 "a"; VObj "Guest" [("name", VStr "g")]; user 3 "c"] n = Some item /\
      getter_raised (getter_of default_label_attr) (getter_of default_value_attr) item
                    (Exc AttributeError "id" None).
Proof.
  exact (choices_prefix blog (Table "visitors") default_label_attr default_value_attr
           (mkCollection [user 1 "a"; VObj "Guest" [("name", VStr "g")]; user 3 "c"])
           eq_refl).
Defined.

(** X15.  A dotted name as selector walks the attributes: the part before
    the first dot is looked up on the row, and the rest of the name on
    what that gives; a missing first attribute is the [AttributeError]. *)
Theorem dotted_selector (a b : string) (item : pyval) :
  has_dot a = false ->
  getter_of (AttrName (a ++ String "."%char b)%string) item
  = match getattr item a with
    | inl e => inl e
    | inr v => getter_of (AttrName b) v
    end.
Proof.
  intros Ha. simpl. unfold attrgetter.
  rewrite (split_dots_dotted a b Ha); reflexivity.
Qed.

Lemma dotted_selector_witness :
  yielded (choices blog (Table "posts") (AttrName "author.name") (AttrName "id"))
  = [(VInt 10, VStr "a"); (VInt 11, VStr "b")] /\
  getter_of (AttrName "author.name")
            (VObj "Post 10" [("id", VInt 10); ("author", user 1 "a")])
  = inr (VStr "a").
Proof.
  split; [reflexivity|].
  exact (dotted_selector "author" "name"
           (VObj "Post 10" [("id", VInt 10); ("author", user 1 "a")]) eq_refl).
Defined.

(** ** Round trips to the session *)

(** X14.  Every method asks the session exactly once, whatever the answer
    and however the method ends: a failing getter in [choices], a failing
    [int] in [count] or an exception translated by [one] causes no second
    execution. *)
Theorem single_round_trip (self : Query) (stmt : Select) (exc : exn) (d : pyval)
        (batch_size : Z) (label_attr value_attr : selector) :
  calls (one self stmt) = [CallScalars stmt] /\
  calls (one_or_none self stmt) = [CallScalars stmt] /\
  calls (one_or_raise self stmt exc) = [CallScalars stmt] /\
  calls (one_or_default self stmt d) = [CallScalars stmt] /\
  calls (all self stmt) = [CallScalars stmt] /\
  gen_calls (iterator self stmt batch_size)
  = [CallStream (execution_options stmt batch_size)] /\
  calls (exists_ self stmt) = [CallScalars (sa_select_exists stmt)] /\
  calls (count self stmt) = [CallScalars (sa_select_count_from_subquery stmt)] /\
  gen_calls (choices self stmt label_attr value_attr) = [CallScalars stmt].
Proof.
  repeat split.
  - rewrite one_unfold; reflexivity.
  - rewrite one_or_none_unfold; reflexivity.
  - rewrite one_or_raise_unfold, one_or_none_unfold; reflexivity.
  - rewrite one_or_default_unfold, one_or_none_unfold; reflexivity.
  - rewrite all_unfold; reflexivity.
  - unfold iterator, gen_await, stream.
    destruct (stream_rows (dbsession self) (execution_options stmt batch_size));
      [reflexivity|].
    rewrite gen_for_batches; reflexivity.
  - rewrite exists_unfold; reflexivity.
  - rewrite count_unfold; reflexivity.
  - rewrite choices_unfold, all_unfold; simpl.
    destruct (execute (dbsession self) stmt) as [ex | rows]; [reflexivity|].
    unfold gen_seq; simpl.
    rewrite gen_for_no_calls by (intros x; apply choice_of_no_calls).
    reflexivity.
Qed.
